(** * ArchProbe: the orchestration core of [apps/archprobe/env.hpp]

    A shallow embedding of [archprobe::Environment]: the two persistent
    JSON documents (configuration and report), the started-aspect set and
    the current-aspect cursor, with the inline accessors of [env.hpp]
    translated function by function. *)

From Stdlib Require Import QArith Qround Lqa Sorted.
From stdpp Require Import gmap strings list fin_maps.

Set Warnings "-register-all,-clear-no-such-hyp".
Local Open Scope string_scope.

(** ** The structured value store ([json.hpp]) *)

Module json.

(** Modelled from the spec: [json.hpp] (the type [json::JsonValue]) is not
    part of the sources; section 2 calls it "an ordered key/value document
    type supporting nested objects, numbers, strings, lists".  [env.hpp]
    uses its member map [obj] (a [std::map<std::string, JsonValue>]) and the
    tests [is_obj()] and [is_num()].  Numbers carry a rational. *)
Inductive JsonValue : Type :=
  | JNull
  | JBool (b : bool)
  | JNum (q : Q)
  | JStr (s : string)
  | JObj (o : gmap string JsonValue)
  | JArr (a : list JsonValue).

(** [json::JsonObject {}], converted to a [JsonValue]. *)
Definition JsonObject : JsonValue := JObj ∅.

Definition is_obj (v : JsonValue) : bool :=
  match v with JObj _ => true | _ => false end.

Definition is_num (v : JsonValue) : bool :=
  match v with JNum _ => true | _ => false end.

(** The member map [v.obj]; only ever read on values that passed
    [is_obj()]. *)
Definition obj (v : JsonValue) : gmap string JsonValue :=
  match v with JObj o => o | _ => ∅ end.

(** [m[k]] of [std::map]: a missing key is first bound to a
    default-constructed value ([JsonValue()], the null value). *)
Definition map_index (m : gmap string JsonValue) (k : string)
  : gmap string JsonValue :=
  match m !! k with
  | Some _ => m
  | None => <[k := JNull]> m
  end.

(** [v[name]] of [JsonValue]: the member of an object. *)
Definition index (v : JsonValue) (name : string) : JsonValue :=
  default JNull (obj v !! name).

End json.
Import json.

(** ** Iterators of [std::map]

    An iterator is a position in one particular container: [find] yields
    the entry of the key, or the past-the-end position of the container
    searched.  Two iterators are equal when they denote the same position
    of the same container. *)

Inductive Container : Type :=
  | CfgRoot                      (* cfg_.obj *)
  | CfgAspect (aspect : string)  (* cfg_.obj[aspect].obj *)
  | ReportRoot                   (* report_.obj *)
  | ReportAspect (aspect : string).

Inductive MapIter : Type :=
  | IterAt (c : Container) (k : string)
  | IterEnd (c : Container).

Global Instance Container_eq_dec : EqDecision Container.
Proof. solve_decision. Defined.

Global Instance MapIter_eq_dec : EqDecision MapIter.
Proof. solve_decision. Defined.

Definition map_find (c : Container) (m : gmap string JsonValue) (k : string)
  : MapIter :=
  match m !! k with
  | Some _ => IterAt c k
  | None => IterEnd c
  end.

Definition map_end (c : Container) : MapIter := IterEnd c.

Definition iter_eqb (i j : MapIter) : bool := bool_decide (i = j).

(** [it->second], for an iterator into [m]. *)
Definition iter_second (m : gmap string JsonValue) (it : MapIter) : JsonValue :=
  match it with
  | IterAt _ k => default JNull (m !! k)
  | IterEnd _ => JNull
  end.

(** ** The environment *)

Record Environment : Type := mkEnvironment {
  aspects_started_ : gset string;
  cur_aspect_ : string;
  cfg_ : gmap string JsonValue;      (* cfg_.obj *)
  report_ : gmap string JsonValue;   (* report_.obj *)
}.

Definition set_cfg (c : gmap string JsonValue) (e : Environment) : Environment :=
  {| aspects_started_ := aspects_started_ e; cur_aspect_ := cur_aspect_ e;
     cfg_ := c; report_ := report_ e |}.

Definition set_report (r : gmap string JsonValue) (e : Environment) : Environment :=
  {| aspects_started_ := aspects_started_ e; cur_aspect_ := cur_aspect_ e;
     cfg_ := cfg_ e; report_ := r |}.

(** [get_aspect_cfg(aspect)]: the returned reference is [cfg_.obj[aspect]]
    of the resulting environment. *)
Definition get_aspect_cfg (aspect : string) (e : Environment) : Environment :=
  let it := map_find CfgRoot (cfg_ e) aspect in
  if iter_eqb it (map_end CfgRoot) || negb (is_obj (iter_second (cfg_ e) it))
  then set_cfg (<[aspect := JsonObject]> (cfg_ e)) e
  else e.

Definition get_cfg (e : Environment) : Environment :=
  get_aspect_cfg (cur_aspect_ e) e.

(** [get_aspect_report(aspect)]: the returned reference is
    [report_.obj[aspect]] of the resulting environment. *)
Definition get_aspect_report (aspect : string) (e : Environment) : Environment :=
  let it := map_find ReportRoot (report_ e) aspect in
  if iter_eqb it (map_end ReportRoot) || negb (is_obj (iter_second (report_ e) it))
  then set_report (<[aspect := JsonObject]> (report_ e)) e
  else e.

Definition get_report (e : Environment) : Environment :=
  get_aspect_report (cur_aspect_ e) e.

(** The referents of the references the two accessors return. *)
Definition deref_cfg (aspect : string) (e : Environment) : JsonValue :=
  default JNull (cfg_ e !! aspect).

Definition deref_report (aspect : string) (e : Environment) : JsonValue :=
  default JNull (report_ e !! aspect).

(** ** Failures

    The error taxonomy of section 7.  [archprobe::assert] ([assert.hpp])
    raises when its condition is false. *)

Inductive Error : Type :=
  | DuplicateAspectError
  | MissingDependencyError
  | MissingReportError
  | CalibrationError.

Inductive Result (A : Type) : Type :=
  | Ok (a : A)
  | Raise (err : Error).
Arguments Ok {A} a.
Arguments Raise {A} err.

(** A computation on the environment that may raise; the environment as
    mutated so far survives a failure. *)
Definition M (A : Type) : Type := Environment → Result A * Environment.

Definition ret {A} (a : A) : M A := λ e, (Ok a, e).

Definition bind {A B} (m : M A) (k : A → M B) : M B :=
  λ e, match m e with
       | (Ok a, e1) => k a e1
       | (Raise err, e1) => (Raise err, e1)
       end.

Notation "'let!' x ':=' m 'in' k" := (bind m (λ x, k))
  (at level 10, x name, m at level 100, k at level 200).
Notation "'run!' m 'in' k" := (bind m (λ _, k))
  (at level 10, m at level 100, k at level 200).

Definition assert (cond : bool) (err : Error) : M unit :=
  λ e, if cond then (Ok tt, e) else (Raise err, e).

(** ** The typed accessors

    The member templates of [Environment] are parameterised by the value
    type [T]; [JsonValue(T)] and [operator T()] of [json.hpp] are taken as
    [to_json] and [of_json]. *)

Section Accessors.

Context {T : Type}.
Variable to_json : T → JsonValue.
Variable of_json : JsonValue → T.

Definition cfg_num (name : string) (default_value : T) (e : Environment)
  : T * Environment :=
  let e1 := get_cfg e in
  let aspect := cur_aspect_ e in
  let cfg := obj (deref_cfg aspect e1) in
  (* cfg.obj.find(name) == cfg_.obj.end() *)
  let at_end :=
    iter_eqb (map_find (CfgAspect aspect) cfg name) (map_end CfgRoot) in
  (* the right operand of || evaluates cfg.obj[name] *)
  let cfg1 := if at_end then cfg else map_index cfg name in
  let invalid := at_end || negb (is_num (default JNull (cfg1 !! name))) in
  let cfg2 :=
    if invalid then <[name := to_json default_value]> cfg1 else cfg1 in
  (of_json (index (JObj cfg2) name),
   set_cfg (<[aspect := JObj cfg2]> (cfg_ e1)) e1).

(** The value [cfg_num] is meant to leave under the key [name] of the
    member map [o]: the stored one when numeric, the default otherwise. *)
Definition kept (o : gmap string JsonValue) (name : string) (d : T)
  : JsonValue :=
  let stored := default JNull (o !! name) in
  if is_num stored then stored else to_json d.

(** [out] is passed by reference: its final value is returned. *)
Definition try_get_aspect_report (aspect name : string) (out : T)
    (e : Environment) : bool * T * Environment :=
  let e1 := get_aspect_report aspect e in
  let report := obj (deref_report aspect e1) in
  let it := map_find (ReportAspect aspect) report name in
  if iter_eqb it (map_end (ReportAspect aspect))
  then (false, out, e1)
  else (true, of_json (iter_second report it), e1).

Definition try_get_report (name : string) (out : T) (e : Environment)
  : bool * T * Environment :=
  try_get_aspect_report (cur_aspect_ e) name out e.

(** [T out;] is left uninitialised: [indeterminate] is whatever it holds. *)
Definition must_get_aspect_report (indeterminate : T) (aspect name : string)
  : M T :=
  λ e, let '(found, out, e1) :=
         try_get_aspect_report aspect name indeterminate e in
       (run! assert found MissingReportError in ret out) e1.

Definition report_value (name : string) (value : T) (e : Environment)
  : Environment :=
  let e1 := get_report e in
  let aspect := cur_aspect_ e in
  let report := obj (deref_report aspect e1) in
  set_report
    (<[aspect := JObj (<[name := to_json value]> report)]> (report_ e1)) e1.

End Accessors.

Definition clear_aspect_report (aspect : string) (e : Environment)
  : Environment :=
  if negb (String.eqb aspect "")
  then let e1 := get_aspect_report aspect e in
       set_report (<[aspect := JsonObject]> (report_ e1)) e1
  else e.

(** ** The aspect lifecycle

    [env.hpp] only declares [report_started], [report_started_lazy],
    [report_ready], [check_dep] and [ensure_min_niter]. *)

Definition set_started (name : string) (e : Environment) : Environment :=
  {| aspects_started_ := {[name]} ∪ aspects_started_ e;
     cur_aspect_ := name; cfg_ := cfg_ e; report_ := report_ e |}.

(** Modelled from the spec: the body of [Environment::report_started] is
    missing (section 4.1): it fails with a [DuplicateAspectError] if the
    aspect is already in the started-set, and otherwise records the name in
    the started-set and makes it the current aspect. *)
Definition report_started (aspect_name : string) : M unit :=
  λ e, if bool_decide (aspect_name ∈ aspects_started_ e)
       then (Raise DuplicateAspectError, e)
       else (Ok tt, set_started aspect_name e).

(** The value stored under [key] in the sub-document of [aspect], when that
    sub-document is an object holding the key. *)
Definition doc_lookup (doc : gmap string JsonValue) (aspect key : string)
  : option JsonValue :=
  match doc !! aspect with
  | Some (JObj o) => o !! key
  | _ => None
  end.

(** The member map of the sub-document of [aspect]; empty when the entry is
    missing or not an object. *)
Definition sub_doc (doc : gmap string JsonValue) (aspect : string)
  : gmap string JsonValue :=
  match doc !! aspect with
  | Some (JObj o) => o
  | _ => ∅
  end.

(** Section 3: a report is complete when it holds ["Done": true]. *)
Definition report_complete (doc : gmap string JsonValue) (aspect : string)
  : bool :=
  match doc_lookup doc aspect "Done" with
  | Some (JBool true) => true
  | _ => false
  end.

(** Modelled from the spec: the body of [Environment::report_started_lazy]
    is missing (section 4.1): "same transition, but first checks the Report
    Document"; the result is [true] for "skip" and [false] for "must run",
    as the comment on the declaration has it. *)
Definition report_started_lazy (aspect_name : string) : M bool :=
  λ e, let skip := report_complete (report_ e) aspect_name in
       (run! report_started aspect_name in ret skip) e.

(** Modelled from the spec: the body of [Environment::report_ready] is
    missing (section 4.1): it writes ["Done": done] into the report
    sub-document of the current aspect and keeps the cursor. *)
Definition report_ready (done : bool) : M unit :=
  λ e, (Ok tt, report_value JBool "Done" done e).

(** Modelled from the spec: the body of [Environment::check_dep] is missing
    (section 4.1): it fails with a [MissingDependencyError] if the name is
    not in the started-set. *)
Definition check_dep (aspect_name : string) : M unit :=
  λ e, assert (bool_decide (aspect_name ∈ aspects_started_ e))
         MissingDependencyError e.

(** The environment a process starts from: the two documents as loaded,
    nothing started, no current aspect (section 9). *)
Definition fresh (cfg report : gmap string JsonValue) : Environment :=
  {| aspects_started_ := ∅; cur_aspect_ := "";
     cfg_ := cfg; report_ := report |}.

(** A process start with a complete report of aspect ["A"] on disk. *)
Definition done_before : Environment :=
  fresh ∅ {["A" := JObj {["Done" := JBool true]}]}.

(** The calls an aspect body or the driver makes during one run. *)
Inductive Call : Type :=
  | CallStarted (name : string)
  | CallStartedLazy (name : string)
  | CallReady (done : bool)
  | CallCheckDep (name : string)
  | CallCfgNum (name : string) (default_value : Q)
  | CallReportValue (name : string) (value : JsonValue)
  | CallTryGet (aspect name : string)
  | CallClear (aspect : string).

Definition num_of_json (v : JsonValue) : Q :=
  match v with JNum q => q | _ => 0%Q end.

Definition exec (c : Call) : M unit :=
  match c with
  | CallStarted name => report_started name
  | CallStartedLazy name => let! _ := report_started_lazy name in ret tt
  | CallReady done => report_ready done
  | CallCheckDep name => check_dep name
  | CallCfgNum name d => λ e, (Ok tt, (cfg_num JNum num_of_json name d e).2)
  | CallReportValue name v => λ e, (Ok tt, report_value id name v e)
  | CallTryGet aspect name =>
      λ e, (Ok tt, (try_get_aspect_report id aspect name JNull e).2)
  | CallClear aspect => λ e, (Ok tt, clear_aspect_report aspect e)
  end.

(** A run: the calls in order, aborted by the first failure. *)
Fixpoint exec_all (cs : list Call) : M unit :=
  match cs with
  | [] => ret tt
  | c :: cs' => run! exec c in exec_all cs'
  end.

(** The names a run asked to start. *)
Definition starts (c : Call) : option string :=
  match c with
  | CallStarted name | CallStartedLazy name => Some name
  | _ => None
  end.

(** ** The timing controller *)

(** [niter] is a [uint32_t]: a count in [0 .. UINT32_MAX], with the
    wrap-around of unsigned conversion. *)
Definition UINT32_MAX : Z := 4294967295.

Definition to_uint32 (z : Z) : Z := z mod (UINT32_MAX + 1).

Section Timing.

(** What the timing closure touches besides [niter] (device, queue, clock). *)
Context {W : Type}.

(** [run()]: the closure reads the iteration count through the reference it
    captured and reports the elapsed microseconds (a [double], taken as a
    rational). *)
Variable run : Z → W → Q * W.

(** The safety margin and the retry cap are the constants section 9 leaves
    to the implementer. *)
Variable margin : Q.
Variable max_retries : nat.

(** Modelled from the spec: the scale-up step of the missing body of
    [Environment::ensure_min_niter] (section 4.3): the count is multiplied
    by "the ratio [T_min / elapsed] (with a safety margin)" and stored back
    into the [uint32_t]. *)
Definition scale_up (min_time_us elapsed : Q) (niter : Z) : Z :=
  to_uint32 (Qfloor (inject_Z niter * (min_time_us / elapsed) * margin)).

(** Modelled from the spec: the body of [Environment::ensure_min_niter] is
    missing (section 4.3): one invocation of [run]; stop when the threshold
    is met; otherwise retry with the scaled-up count, at most [budget] more
    times, and fail with a [CalibrationError] beyond that.  The result is
    the outcome, [niter] as left behind, the world after the last
    invocation, and the record of the invocations of [run] in order: the
    count each was made at and the elapsed time it reported. *)
Fixpoint calibrate (budget : nat) (min_time_us : Q) (niter : Z) (w : W)
  : Result unit * Z * W * list (Z * Q) :=
  let '(elapsed, w1) := run niter w in
  if Qle_bool min_time_us elapsed then (Ok tt, niter, w1, [(niter, elapsed)])
  else match budget with
       | 0 => (Raise CalibrationError, niter, w1, [(niter, elapsed)])
       | S budget' =>
           let '(r, niter', w', log) :=
             calibrate budget' min_time_us
               (scale_up min_time_us elapsed niter) w1 in
           (r, niter', w', (niter, elapsed) :: log)
       end.

Definition ensure_min_niter (min_time_us : Q) (niter : Z) (w : W)
  : Result unit * Z * W * list (Z * Q) :=
  calibrate max_retries min_time_us niter w.


End Timing.

(** The synthetic timing functions of section 8: elapsed time inversely
    proportional, and proportional, to the count. *)
Definition run_inverse (k : Q) (n : Z) (w : unit) : Q * unit :=
  ((k / inject_Z n)%Q, w).

Definition run_linear (k : Q) (n : Z) (w : unit) : Q * unit :=
  ((k * inject_Z n)%Q, w).


(** ** Reference points for the accessors *)

(** A document all of whose aspect entries are objects. *)
Definition objects_only (doc : gmap string JsonValue) : Prop :=
  map_Forall (λ _ v, is_obj v = true) doc.

Definition well_formed (e : Environment) : Prop :=
  objects_only (cfg_ e) ∧ objects_only (report_ e).

(** An environment in the middle of aspect ["x"], with well-formed
    documents. *)
Definition in_aspect_x : Environment :=
  {| aspects_started_ := {["x"]};
     cur_aspect_ := "x";
     cfg_ := {["x" := JObj {["iters" := JNum 100]}]};
     report_ := {["x" := JObj {["n" := JNum 7]}]} |}.

(** * Properties *)

(** ** Iterators and the member maps *)

Lemma iter_find_end (c : Container) (m : gmap string JsonValue) (k : string) :
  iter_eqb (map_find c m k) (map_end c) = bool_decide (m !! k = None).
Proof.
  unfold iter_eqb, map_find, map_end.
  destruct (m !! k); apply bool_decide_ext; naive_solver.
Qed.

Lemma iter_find_foreign_end (c c' : Container) (m : gmap string JsonValue)
    (k : string) :
  c ≠ c' → iter_eqb (map_find c m k) (map_end c') = false.
Proof.
  intros Hc. unfold iter_eqb, map_find, map_end.
  apply bool_decide_eq_false. destruct (m !! k); congruence.
Qed.

Lemma iter_second_find (c : Container) (m : gmap string JsonValue) (k : string) :
  iter_second m (map_find c m k) = default JNull (m !! k).
Proof. unfold map_find. by destruct (m !! k) eqn:E; simpl; rewrite ?E. Qed.

Lemma map_index_lookup (m : gmap string JsonValue) (k : string) :
  map_index m k !! k = Some (default JNull (m !! k)).
Proof.
  unfold map_index. destruct (m !! k) eqn:E; simpl; [done|].
  apply lookup_insert_eq.
Qed.

Lemma insert_map_index (m : gmap string JsonValue) (k : string) (v : JsonValue) :
  <[k := v]> (map_index m k) = <[k := v]> m.
Proof.
  unfold map_index. destruct (m !! k); [done|]. apply insert_insert_eq.
Qed.

Lemma set_cfg_id (e : Environment) : set_cfg (cfg_ e) e = e.
Proof. by destruct e. Qed.

Lemma set_report_id (e : Environment) : set_report (report_ e) e = e.
Proof. by destruct e. Qed.

(** ** Self-healing reads *)

(** Whether the entry of an aspect has to be replaced. *)
Lemma heal_test (c : Container) (doc : gmap string JsonValue) (aspect : string) :
  iter_eqb (map_find c doc aspect) (map_end c)
    || negb (is_obj (iter_second doc (map_find c doc aspect)))
  = negb (is_obj (default JNull (doc !! aspect))).
Proof.
  rewrite iter_find_end, iter_second_find.
  destruct (doc !! aspect) as [v|]; [|done].
  by case_bool_decide.
Qed.

Lemma get_aspect_cfg_eq (aspect : string) (e : Environment) :
  get_aspect_cfg aspect e
  = set_cfg (<[aspect := JObj (sub_doc (cfg_ e) aspect)]> (cfg_ e)) e.
Proof.
  unfold get_aspect_cfg, sub_doc. cbv zeta. rewrite heal_test.
  destruct (cfg_ e !! aspect) as [[]|] eqn:E; simpl; try done.
  by rewrite insert_id, set_cfg_id.
Qed.

Lemma get_aspect_report_eq (aspect : string) (e : Environment) :
  get_aspect_report aspect e
  = set_report (<[aspect := JObj (sub_doc (report_ e) aspect)]> (report_ e)) e.
Proof.
  unfold get_aspect_report, sub_doc. cbv zeta. rewrite heal_test.
  destruct (report_ e !! aspect) as [[]|] eqn:E; simpl; try done.
  by rewrite insert_id, set_report_id.
Qed.

Lemma doc_lookup_sub_doc (doc : gmap string JsonValue) (aspect key : string) :
  doc_lookup doc aspect key = sub_doc doc aspect !! key.
Proof.
  unfold doc_lookup, sub_doc. by destruct (doc !! aspect) as [[]|].
Qed.

Lemma doc_lookup_insert (doc : gmap string JsonValue) (aspect : string)
    (o : gmap string JsonValue) (a k : string) :
  doc_lookup (<[aspect := JObj o]> doc) a k
  = if decide (aspect = a) then o !! k else doc_lookup doc a k.
Proof.
  unfold doc_lookup. rewrite lookup_insert. by case_decide.
Qed.

(** Healing an entry: the shape of the healed document. *)
Lemma heal_shape (doc : gmap string JsonValue) (aspect : string) :
  let doc' := <[aspect := JObj (sub_doc doc aspect)]> doc in
  is_obj (default JNull (doc' !! aspect)) = true
  ∧ (is_obj (default JNull (doc !! aspect)) = false →
     doc' = <[aspect := JsonObject]> doc)
  ∧ (is_obj (default JNull (doc !! aspect)) = true → doc' = doc)
  ∧ (∀ a k, doc_lookup doc' a k = doc_lookup doc a k).
Proof.
  cbv zeta. split_and!.
  - by rewrite lookup_insert_eq.
  - unfold sub_doc. by destruct (doc !! aspect) as [[]|].
  - unfold sub_doc. destruct (doc !! aspect) as [[]|] eqn:E; try done.
    intros _. by apply insert_id.
  - intros a k. rewrite doc_lookup_insert. case_decide; [subst|done].
    by rewrite doc_lookup_sub_doc.
Qed.

(** C6.  After [get_aspect_cfg] (resp. [get_aspect_report]) the entry of
    the aspect in the configuration (resp. report) document is an object:
    an entry that was absent or not an object is replaced in place by the
    empty object, an entry that was an object leaves the environment as it
    was, and every key/value pair stored in a sub-document before the call
    is still stored there after it. *)
Theorem get_aspect_self_healing (aspect : string) (e : Environment) :
  (let e' := get_aspect_cfg aspect e in
   is_obj (deref_cfg aspect e') = true
   ∧ (is_obj (deref_cfg aspect e) = false →
      e' = set_cfg (<[aspect := JsonObject]> (cfg_ e)) e)
   ∧ (is_obj (deref_cfg aspect e) = true → e' = e)
   ∧ (∀ a k v, doc_lookup (cfg_ e) a k = Some v →
               doc_lookup (cfg_ e') a k = Some v))
  ∧
  (let e' := get_aspect_report aspect e in
   is_obj (deref_report aspect e') = true
   ∧ (is_obj (deref_report aspect e) = false →
      e' = set_report (<[aspect := JsonObject]> (report_ e)) e)
   ∧ (is_obj (deref_report aspect e) = true → e' = e)
   ∧ (∀ a k v, doc_lookup (report_ e) a k = Some v →
               doc_lookup (report_ e') a k = Some v)).
Proof.
  cbv zeta. rewrite get_aspect_cfg_eq, get_aspect_report_eq.
  unfold deref_cfg, deref_report. simpl.
  destruct (heal_shape (cfg_ e) aspect) as (Hc1 & Hc2 & Hc3 & Hc4).
  destruct (heal_shape (report_ e) aspect) as (Hr1 & Hr2 & Hr3 & Hr4).
  split; split_and!; try done.
  - intros H. by rewrite Hc2.
  - intros H. by rewrite Hc3, set_cfg_id.
  - intros a k v. by rewrite Hc4.
  - intros H. by rewrite Hr2.
  - intros H. by rewrite Hr3, set_report_id.
  - intros a k v. by rewrite Hr4.
Qed.

(** C10.  [clear_aspect_report] with the empty name returns the
    environment as it was; with any other name it leaves the empty object
    under that name in the report document and touches nothing else. *)
Theorem clear_aspect_report_spec (e : Environment) :
  clear_aspect_report "" e = e
  ∧ (∀ aspect, aspect ≠ "" →
       clear_aspect_report aspect e
       = set_report (<[aspect := JsonObject]> (report_ e)) e).
Proof.
  split; [done|]. intros aspect Hne. unfold clear_aspect_report.
  apply String.eqb_neq in Hne. rewrite Hne. simpl.
  rewrite get_aspect_report_eq. unfold set_report. simpl.
  by rewrite insert_insert_eq.
Qed.

Section AccessorProperties.

Context {T : Type}.
Variable to_json : T → JsonValue.
Variable of_json : JsonValue → T.

(** What [try_get_aspect_report] computes, in terms of the document it is
    called on. *)
Lemma try_get_aspect_report_eq (aspect name : string) (out : T)
    (e : Environment) :
  try_get_aspect_report of_json aspect name out e
  = (bool_decide (is_Some (doc_lookup (report_ e) aspect name)),
     from_option of_json out (doc_lookup (report_ e) aspect name),
     get_aspect_report aspect e).
Proof.
  unfold try_get_aspect_report. cbv zeta.
  assert (obj (deref_report aspect (get_aspect_report aspect e))
          = sub_doc (report_ e) aspect) as ->.
  { rewrite get_aspect_report_eq. unfold deref_report. simpl.
    by rewrite lookup_insert_eq. }
  rewrite iter_find_end, iter_second_find, doc_lookup_sub_doc.
  destruct (sub_doc (report_ e) aspect !! name) as [v|] eqn:E;
    repeat case_bool_decide; simpl; try done.
  exfalso; eauto.
Qed.

(** C7.  [try_get_aspect_report] returns [true] exactly when the key exists
    in the report sub-document of the aspect; then [out] receives the
    converted stored value, and when it returns [false] [out] is as it
    was. *)
Theorem try_get_aspect_report_spec (aspect name : string) (out : T)
    (e : Environment) :
  let '(found, out', _) := try_get_aspect_report of_json aspect name out e in
  (found = true ↔ is_Some (doc_lookup (report_ e) aspect name))
  ∧ (∀ v, doc_lookup (report_ e) aspect name = Some v → out' = of_json v)
  ∧ (found = false → out' = out).
Proof.
  rewrite try_get_aspect_report_eq. split_and!.
  - apply bool_decide_eq_true.
  - by intros v ->.
  - intros H%bool_decide_eq_false.
    destruct (doc_lookup (report_ e) aspect name); [|done].
    by destruct H.
Qed.

(** C8.  [must_get_aspect_report] fails with a [MissingReportError]
    exactly when the key is absent from the report sub-document of the
    aspect, and otherwise returns the converted stored value, which is what
    a successful [try_get_aspect_report] writes through [out]. *)
Theorem must_get_aspect_report_spec (indeterminate : T)
    (aspect name : string) (e : Environment) :
  let r := (must_get_aspect_report of_json indeterminate aspect name e).1 in
  (r = Raise MissingReportError ↔ doc_lookup (report_ e) aspect name = None)
  ∧ (∀ v, doc_lookup (report_ e) aspect name = Some v → r = Ok (of_json v))
  ∧ (∀ out, let '(found, out', _) :=
              try_get_aspect_report of_json aspect name out e in
            found = true → r = Ok out').
Proof.
  unfold must_get_aspect_report. cbv zeta.
  rewrite try_get_aspect_report_eq.
  destruct (doc_lookup (report_ e) aspect name) as [v|] eqn:E.
  - rewrite bool_decide_eq_true_2 by eauto. simpl. split_and!.
    + split; intros; discriminate.
    + by intros ? [= ->].
    + intros out. rewrite try_get_aspect_report_eq, E. done.
  - rewrite bool_decide_eq_false_2 by (by intros [? ?]). simpl. split_and!.
    + done.
    + intros; discriminate.
    + intros out. rewrite try_get_aspect_report_eq, E.
      rewrite bool_decide_eq_false_2 by (by intros [? ?]). done.
Qed.

(** What [cfg_num] computes: the value kept under the key is the stored
    one when it is numeric and the default otherwise. *)
Lemma cfg_num_eq (name : string) (d : T) (e : Environment) :
  let a := cur_aspect_ e in
  let o := sub_doc (cfg_ e) a in
  cfg_num to_json of_json name d e
  = (of_json (kept to_json o name d),
     set_cfg (<[a := JObj (<[name := kept to_json o name d]> o)]> (cfg_ e)) e).
Proof.
  cbv zeta. unfold cfg_num, get_cfg. cbv zeta.
  assert (obj (deref_cfg (cur_aspect_ e) (get_aspect_cfg (cur_aspect_ e) e))
          = sub_doc (cfg_ e) (cur_aspect_ e)) as ->.
  { rewrite get_aspect_cfg_eq. unfold deref_cfg. simpl.
    by rewrite lookup_insert_eq. }
  rewrite iter_find_foreign_end by done. simpl.
  rewrite map_index_lookup. simpl. unfold kept, index. cbv zeta.
  set (o := sub_doc (cfg_ e) (cur_aspect_ e)).
  rewrite get_aspect_cfg_eq. unfold set_cfg. simpl. fold o.
  rewrite insert_insert_eq.
  destruct (is_num (default JNull (o !! name))) eqn:Hn; simpl.
  - destruct (o !! name) as [v|] eqn:E; [|done]. simpl in *.
    unfold map_index. rewrite E. simpl. rewrite E. simpl.
    by rewrite (insert_id o name v).
  - rewrite insert_map_index. simpl. by rewrite lookup_insert_eq.
Qed.

Lemma kept_is_num (o : gmap string JsonValue) (name : string) (d : T) :
  (∀ x, is_num (to_json x) = true) → is_num (kept to_json o name d) = true.
Proof.
  intros Hnum. unfold kept. cbv zeta.
  by destruct (is_num (default JNull (o !! name))) eqn:E.
Qed.

Lemma kept_again (o : gmap string JsonValue) (name : string) (d : T) :
  (∀ x, is_num (to_json x) = true) →
  kept to_json (<[name := kept to_json o name d]> o) name d = kept to_json o name d.
Proof.
  intros Hnum. unfold kept at 1. cbv zeta. rewrite lookup_insert_eq. simpl.
  by rewrite kept_is_num.
Qed.

(** C1.  Two calls of [cfg_num] with the same arguments return the same
    value, and the second leaves the environment as the first left it.  A
    numeric value stored under the key of the current aspect is returned
    and stays; otherwise the default is stored under the key and
    returned. *)
Theorem cfg_num_idempotent (name : string) (d : T) (e : Environment) :
  (∀ x, is_num (to_json x) = true) →
  (∀ x, of_json (to_json x) = x) →
  let '(v1, e1) := cfg_num to_json of_json name d e in
  let '(v2, e2) := cfg_num to_json of_json name d e1 in
  v2 = v1 ∧ e2 = e1
  ∧ (∀ q, doc_lookup (cfg_ e) (cur_aspect_ e) name = Some (JNum q) →
       v1 = of_json (JNum q)
       ∧ doc_lookup (cfg_ e1) (cur_aspect_ e) name = Some (JNum q))
  ∧ ((∀ q, doc_lookup (cfg_ e) (cur_aspect_ e) name ≠ Some (JNum q)) →
       v1 = d
       ∧ doc_lookup (cfg_ e1) (cur_aspect_ e) name = Some (to_json d)).
Proof.
  intros Hnum Hrt. rewrite !cfg_num_eq. simpl.
  set (a := cur_aspect_ e). set (o := sub_doc (cfg_ e) a).
  assert (sub_doc (<[a := JObj (<[name := kept to_json o name d]> o)]> (cfg_ e)) a
          = <[name := kept to_json o name d]> o) as ->.
  { unfold sub_doc. by rewrite lookup_insert_eq. }
  rewrite kept_again by done. split_and!.
  - done.
  - unfold set_cfg. simpl. by rewrite insert_insert_eq, insert_insert_eq.
  - intros q Hq. rewrite doc_lookup_insert, decide_True by done.
    rewrite lookup_insert_eq. rewrite doc_lookup_sub_doc in Hq. fold o in Hq.
    unfold kept. cbv zeta. by rewrite Hq.
  - intros Hq. rewrite doc_lookup_insert, decide_True by done.
    rewrite lookup_insert_eq. rewrite doc_lookup_sub_doc in Hq.
    fold a o in Hq.
    unfold kept. cbv zeta. destruct (o !! name) as [[]|]; simpl; try done.
    by destruct (Hq q).
Qed.

Lemma report_value_eq (name : string) (value : T) (e : Environment) :
  let a := cur_aspect_ e in
  report_value to_json name value e
  = set_report
      (<[a := JObj (<[name := to_json value]> (sub_doc (report_ e) a))]>
         (report_ e)) e.
Proof.
  cbv zeta. unfold report_value, get_report. cbv zeta.
  rewrite get_aspect_report_eq. unfold deref_report, set_report. simpl.
  rewrite lookup_insert_eq. simpl. by rewrite insert_insert_eq.
Qed.

End AccessorProperties.

Lemma cfg_num_idempotent_witness :
  (∀ x, is_num (JNum x) = true)
  ∧ (∀ x, num_of_json (JNum x) = x)
  ∧ (let '(v1, e1) := cfg_num JNum num_of_json "iters" 100%Q done_before in
     let '(v2, e2) := cfg_num JNum num_of_json "iters" 100%Q e1 in
     v2 = v1 ∧ e2 = e1
     ∧ (∀ q, doc_lookup (cfg_ done_before) (cur_aspect_ done_before) "iters"
             = Some (JNum q) →
          v1 = num_of_json (JNum q)
          ∧ doc_lookup (cfg_ e1) (cur_aspect_ done_before) "iters"
            = Some (JNum q))
     ∧ ((∀ q, doc_lookup (cfg_ done_before) (cur_aspect_ done_before) "iters"
              ≠ Some (JNum q)) →
          v1 = 100%Q
          ∧ doc_lookup (cfg_ e1) (cur_aspect_ done_before) "iters"
            = Some (JNum 100))).
Proof.
  split; [reflexivity|]. split; [reflexivity|].
  apply (cfg_num_idempotent JNum num_of_json "iters" 100%Q done_before);
    reflexivity.
Defined.

(** ** The aspect lifecycle *)

(** C5.  [report_started] fails with a [DuplicateAspectError] on a name
    that is already in the started-set and changes nothing; on any other
    name it adds the name to the started-set and makes it the current
    aspect, leaving both documents alone. *)
Theorem report_started_spec (name : string) (e : Environment) :
  (name ∈ aspects_started_ e →
     report_started name e = (Raise DuplicateAspectError, e))
  ∧ (name ∉ aspects_started_ e →
     ∃ e', report_started name e = (Ok tt, e')
           ∧ aspects_started_ e' = {[name]} ∪ aspects_started_ e
           ∧ cur_aspect_ e' = name
           ∧ cfg_ e' = cfg_ e ∧ report_ e' = report_ e
           ∧ report_started name e' = (Raise DuplicateAspectError, e')).
Proof.
  unfold report_started. split; intros H.
  - by rewrite bool_decide_eq_true_2.
  - rewrite bool_decide_eq_false_2 by done.
    eexists; split_and!; try done.
    rewrite bool_decide_eq_true_2; [done|]. simpl. set_solver.
Qed.

(** C2.  On an aspect not yet started in this run, [report_started_lazy]
    returns [true] ("skip") when the report document holds ["Done": true]
    under the aspect, and then the report document is as it was; it returns
    [false] ("must run") when ["Done"] is absent or [false]. *)
Theorem report_started_lazy_skip (A : string) (e : Environment) :
  A ∉ aspects_started_ e →
  (doc_lookup (report_ e) A "Done" = Some (JBool true) →
     report_started_lazy A e = (Ok true, set_started A e)
     ∧ report_ (set_started A e) = report_ e)
  ∧ (doc_lookup (report_ e) A "Done" = None
     ∨ doc_lookup (report_ e) A "Done" = Some (JBool false) →
     report_started_lazy A e = (Ok false, set_started A e)).
Proof.
  intros Hfresh. unfold report_started_lazy, bind, report_started, ret.
  cbv zeta. rewrite bool_decide_eq_false_2 by done.
  unfold report_complete. split.
  - by intros ->.
  - by intros [-> | ->].
Qed.

Lemma report_started_lazy_skip_witness :
  ("A" ∉ aspects_started_ done_before)
  ∧ report_started_lazy "A" done_before
    = (Ok true, set_started "A" done_before).
Proof.
  assert ("A" ∉ aspects_started_ done_before) as Hfresh
    by (simpl; apply not_elem_of_empty).
  split; [exact Hfresh|].
  apply (report_started_lazy_skip "A" _ Hfresh). reflexivity.
Defined.

(** The accessors never touch the started-set. *)
Lemma get_aspect_report_started (aspect : string) (e : Environment) :
  aspects_started_ (get_aspect_report aspect e) = aspects_started_ e.
Proof. by rewrite get_aspect_report_eq. Qed.

Lemma exec_started (c : Call) (e e' : Environment) :
  exec c e = (Ok tt, e') →
  aspects_started_ e'
  = from_option singleton ∅ (starts c) ∪ aspects_started_ e.
Proof.
  destruct c; cbn [exec starts from_option]; intros Heq.
  - unfold report_started in Heq. case_bool_decide; [done|].
    by injection Heq as <-.
  - unfold report_started_lazy, bind, report_started, ret in Heq.
    case_bool_decide; [done|]. by injection Heq as <-.
  - unfold report_ready in Heq. injection Heq as <-.
    rewrite report_value_eq. simpl. set_solver.
  - unfold check_dep, assert in Heq. case_bool_decide; [|done].
    injection Heq as <-. set_solver.
  - rewrite cfg_num_eq in Heq. injection Heq as <-. set_solver.
  - rewrite report_value_eq in Heq. injection Heq as <-. set_solver.
  - rewrite try_get_aspect_report_eq in Heq. injection Heq as <-.
    rewrite get_aspect_report_started. set_solver.
  - unfold clear_aspect_report in Heq.
    destruct (negb _); injection Heq as <-; simpl; [|set_solver].
    rewrite get_aspect_report_started. set_solver.
Qed.

(** The started-set after a run that did not fail: what was started before,
    and the names the run started. *)
Lemma exec_all_started (cs : list Call) (e e' : Environment) (B : string) :
  exec_all cs e = (Ok tt, e') →
  B ∈ aspects_started_ e' ↔ B ∈ aspects_started_ e ∨ Some B ∈ starts <$> cs.
Proof.
  revert e. induction cs as [|c cs IH]; intros e; simpl.
  - unfold ret. intros [= <-]. rewrite elem_of_nil. tauto.
  - unfold bind. destruct (exec c e) as [[[]|err] e1] eqn:Hc; [|done].
    intros Hcs. rewrite (IH _ Hcs), (exec_started _ _ _ Hc).
    rewrite elem_of_cons, elem_of_union.
    destruct (starts c) as [n|]; simpl.
    + rewrite elem_of_singleton. naive_solver.
    + rewrite elem_of_empty. naive_solver.
Qed.

(** C4.  [check_dep] fails with a [MissingDependencyError] whenever the
    name is not in the started-set and succeeds without effect when it is,
    whatever the report document holds; and after any run from a process
    start that did not fail, the name is in the started-set exactly when
    the run called [report_started] or [report_started_lazy] on it. *)
Theorem check_dep_guard (B : string) (e : Environment) :
  (B ∉ aspects_started_ e →
     check_dep B e = (Raise MissingDependencyError, e))
  ∧ (B ∈ aspects_started_ e → check_dep B e = (Ok tt, e))
  ∧ (∀ cfg report cs,
       exec_all cs (fresh cfg report) = (Ok tt, e) →
       B ∈ aspects_started_ e ↔ Some B ∈ starts <$> cs).
Proof.
  unfold check_dep, assert. split_and!.
  - intros H. by rewrite bool_decide_eq_false_2.
  - intros H. by rewrite bool_decide_eq_true_2.
  - intros cfg report cs Hcs. rewrite (exec_all_started _ _ _ B Hcs).
    simpl. rewrite elem_of_empty. tauto.
Qed.

(** C9.  [report_ready] succeeds, stores the flag under ["Done"] in the
    report sub-document of the current aspect, keeps the cursor, the
    started-set and the configuration, and leaves the entries of all other
    aspects and all other keys of the current aspect as they were. *)
Theorem report_ready_frame (done : bool) (e : Environment) :
  ∃ e', report_ready done e = (Ok tt, e')
    ∧ cur_aspect_ e' = cur_aspect_ e
    ∧ aspects_started_ e' = aspects_started_ e
    ∧ cfg_ e' = cfg_ e
    ∧ doc_lookup (report_ e') (cur_aspect_ e) "Done" = Some (JBool done)
    ∧ (∀ a, a ≠ cur_aspect_ e → report_ e' !! a = report_ e !! a)
    ∧ (∀ k, k ≠ "Done" →
         doc_lookup (report_ e') (cur_aspect_ e) k
         = doc_lookup (report_ e) (cur_aspect_ e) k).
Proof.
  unfold report_ready. eexists; split; [done|].
  rewrite report_value_eq. simpl. split_and!; try done.
  - rewrite doc_lookup_insert, decide_True by done. apply lookup_insert_eq.
  - intros a Ha. by rewrite lookup_insert_ne.
  - intros k Hk. rewrite doc_lookup_insert, decide_True by done.
    rewrite lookup_insert_ne by done. by rewrite doc_lookup_sub_doc.
Qed.

(** ** The timing controller *)



Section TimingProperties.

Context {W : Type}.
Variable run : Z → W → Q * W.
Variable margin : Q.
Variable min_time_us : Q.


(** The counts of a calibration of a well-behaved timing function: a margin
    of at least one, positive elapsed times, scaled counts that fit in a
    [uint32_t]. *)
Hypothesis margin_ge_1 : (1 <= margin)%Q.
Hypothesis run_positive :
  ∀ m w, (1 ≤ m ≤ UINT32_MAX)%Z → (0 < (run m w).1)%Q.
Hypothesis scaled_fits :
  ∀ m w, (1 ≤ m ≤ UINT32_MAX)%Z → ¬ (min_time_us <= (run m w).1)%Q →
    (Qfloor (inject_Z m * (min_time_us / (run m w).1) * margin)
     ≤ UINT32_MAX)%Z.


End TimingProperties.






(** The scenario of section 8: ten microseconds per iteration, a threshold
    of a thousand, starting from one iteration; one retry, at a hundred
    iterations. *)
Example ensure_min_niter_linear :
  ensure_min_niter (run_linear 10) 1 8 1000 1 tt
  = (Ok tt, 100%Z, tt, [(1%Z, 10%Q); (100%Z, 1000%Q)]).
Proof. vm_compute. reflexivity. Qed.

(** With [elapsed = k / n] a count that starts below the threshold stays
    below it: the retries run out, and on the way the scaled count outgrows
    the [uint32_t] and wraps. *)
Example ensure_min_niter_inverse_gives_up :
  let '(r, _, _, log) :=
    ensure_min_niter (run_inverse 500) 1 8 1000 1 tt in
  r = Raise CalibrationError
  ∧ log.*1 = [1; 2; 8; 128; 32768; 2147483648; 0; 0; 0]%Z.
Proof. vm_compute. split; reflexivity. Qed.

(** ** The end-to-end scenario of section 8 *)

(** A first process measures aspect ["x"] and marks it done; a second
    process, started on the documents the first one left, is told to
    skip it. *)
Example second_run_skips :
  let e1 := (exec_all [CallStarted "x"; CallCfgNum "iters" 100;
                       CallReportValue "n" (JNum 100); CallReady true]
               (fresh ∅ ∅)).2 in
  doc_lookup (report_ e1) "x" "Done" = Some (JBool true)
  ∧ (report_started_lazy "x" (fresh (cfg_ e1) (report_ e1))).1 = Ok true.
Proof. vm_compute. split; reflexivity. Qed.

(** * Further properties of the accessors of [env.hpp] *)

Lemma sub_doc_insert (doc : gmap string JsonValue) (a b : string)
    (o : gmap string JsonValue) :
  sub_doc (<[a := JObj o]> doc) b
  = if decide (a = b) then o else sub_doc doc b.
Proof. unfold sub_doc. rewrite lookup_insert. by case_decide. Qed.

Lemma sub_doc_obj (doc : gmap string JsonValue) (a : string) :
  is_obj (default JNull (doc !! a)) = true →
  doc !! a = Some (JObj (sub_doc doc a)).
Proof. unfold sub_doc. by destruct (doc !! a) as [[]|]. Qed.

Lemma get_aspect_report_obj (aspect : string) (e : Environment) :
  is_obj (deref_report aspect e) = true → get_aspect_report aspect e = e.
Proof.
  intros H. rewrite get_aspect_report_eq.
  rewrite insert_id by by apply sub_doc_obj. apply set_report_id.
Qed.

Lemma clear_aspect_report_eq (aspect : string) (e : Environment) :
  clear_aspect_report aspect e
  = if decide (aspect = "") then e
    else set_report (<[aspect := JsonObject]> (report_ e)) e.
Proof.
  unfold clear_aspect_report. case_decide as Hd.
  - by subst.
  - apply String.eqb_neq in Hd. rewrite Hd. simpl.
    rewrite get_aspect_report_eq. unfold set_report. simpl.
    by rewrite insert_insert_eq.
Qed.

Lemma must_get_aspect_report_eq {T : Type} (of_json : JsonValue → T)
    (indeterminate : T) (aspect name : string) (e : Environment) :
  must_get_aspect_report of_json indeterminate aspect name e
  = (match doc_lookup (report_ e) aspect name with
     | Some v => Ok (of_json v)
     | None => Raise MissingReportError
     end, get_aspect_report aspect e).
Proof.
  unfold must_get_aspect_report. rewrite try_get_aspect_report_eq.
  destruct (doc_lookup (report_ e) aspect name) as [v|] eqn:E.
  - by rewrite bool_decide_eq_true_2 by eauto.
  - by rewrite bool_decide_eq_false_2 by (by intros [? ?]).
Qed.

Lemma try_get_found {T : Type} (of_json : JsonValue → T)
    (aspect name : string) (out : T) (e : Environment) (v : JsonValue) :
  doc_lookup (report_ e) aspect name = Some v →
  try_get_aspect_report of_json aspect name out e
  = (true, of_json v, get_aspect_report aspect e).
Proof.
  intros H. rewrite try_get_aspect_report_eq, H.
  by rewrite bool_decide_eq_true_2 by eauto.
Qed.

Lemma try_get_missing {T : Type} (of_json : JsonValue → T)
    (aspect name : string) (out : T) (e : Environment) :
  doc_lookup (report_ e) aspect name = None →
  try_get_aspect_report of_json aspect name out e
  = (false, out, get_aspect_report aspect e).
Proof.
  intros H. rewrite try_get_aspect_report_eq, H.
  by rewrite bool_decide_eq_false_2 by (by intros [? ?]).
Qed.

Lemma get_aspect_report_inserted (aspect : string)
    (o : gmap string JsonValue) (doc : gmap string JsonValue)
    (e : Environment) :
  get_aspect_report aspect (set_report (<[aspect := JObj o]> doc) e)
  = set_report (<[aspect := JObj o]> doc) e.
Proof.
  apply get_aspect_report_obj. unfold deref_report. simpl.
  by rewrite lookup_insert_eq.
Qed.

(** ** Writing and reading a report *)

(** X1.  A value written with [report_value] is found by [try_get_report]
    and by [must_get_aspect_report] at the current aspect: both yield the
    stored value converted back, and neither changes the environment the
    write left. *)
Theorem report_value_round_trip {T U : Type} (to_json : T → JsonValue)
    (of_json : JsonValue → U) (name : string) (value : T)
    (out indeterminate : U) (e : Environment) :
  let e1 := report_value to_json name value e in
  try_get_report of_json name out e1 = (true, of_json (to_json value), e1)
  ∧ must_get_aspect_report of_json indeterminate (cur_aspect_ e) name e1
    = (Ok (of_json (to_json value)), e1).
Proof.
  cbv zeta. unfold try_get_report.
  rewrite must_get_aspect_report_eq, report_value_eq.
  set (o := <[name := to_json value]> (sub_doc (report_ e) (cur_aspect_ e))).
  set (e1 := set_report (<[cur_aspect_ e := JObj o]> (report_ e)) e).
  change (cur_aspect_ e1) with (cur_aspect_ e).
  assert (doc_lookup (report_ e1) (cur_aspect_ e) name
          = Some (to_json value)) as Hl.
  { simpl. rewrite doc_lookup_insert, decide_True by done.
    apply lookup_insert_eq. }
  rewrite (try_get_found of_json _ _ out _ _ Hl), Hl.
  unfold e1. by rewrite get_aspect_report_inserted.
Qed.

(** X2.  The last [report_value] on a key wins, and writes to different
    keys can be made in either order. *)
Theorem report_value_overwrite {T U : Type} (to1 : T → JsonValue)
    (to2 : U → JsonValue) (name : string) (v1 : T) (v2 : U)
    (e : Environment) :
  report_value to2 name v2 (report_value to1 name v1 e)
  = report_value to2 name v2 e
  ∧ (∀ name', name ≠ name' →
       report_value to2 name' v2 (report_value to1 name v1 e)
       = report_value to1 name v1 (report_value to2 name' v2 e)).
Proof.
  split; [|intros name' Hne]; rewrite !report_value_eq; unfold set_report;
    simpl; rewrite !sub_doc_insert, !decide_True by done;
    rewrite !insert_insert_eq; [done|].
  by rewrite (insert_insert_ne _ name name').
Qed.

(** X3.  [report_value] changes one key of one sub-document: the key holds
    the new value, the other keys of the current aspect and the entries of
    all other aspects are as before. *)
Theorem report_value_frame {T : Type} (to_json : T → JsonValue)
    (name : string) (value : T) (e : Environment) :
  let r' := report_ (report_value to_json name value e) in
  doc_lookup r' (cur_aspect_ e) name = Some (to_json value)
  ∧ (∀ k, k ≠ name →
       doc_lookup r' (cur_aspect_ e) k
       = doc_lookup (report_ e) (cur_aspect_ e) k)
  ∧ (∀ a, a ≠ cur_aspect_ e → r' !! a = report_ e !! a).
Proof.
  cbv zeta. rewrite report_value_eq. simpl. split_and!.
  - rewrite doc_lookup_insert, decide_True by done. apply lookup_insert_eq.
  - intros k Hk. rewrite doc_lookup_insert, decide_True by done.
    rewrite lookup_insert_ne by done. by rewrite doc_lookup_sub_doc.
  - intros a Ha. by rewrite lookup_insert_ne.
Qed.

(** X4.  After [clear_aspect_report] on a non-empty aspect name no key of
    that aspect is found any more: [try_get_aspect_report] returns [false]
    and leaves [out], [must_get_aspect_report] fails, both without further
    change; the keys of all other aspects are as before. *)
Theorem clear_then_lookup {T : Type} (of_json : JsonValue → T)
    (aspect name : string) (out indeterminate : T) (e : Environment) :
  aspect ≠ "" →
  let e1 := clear_aspect_report aspect e in
  try_get_aspect_report of_json aspect name out e1 = (false, out, e1)
  ∧ must_get_aspect_report of_json indeterminate aspect name e1
    = (Raise MissingReportError, e1)
  ∧ (∀ b k, b ≠ aspect →
       doc_lookup (report_ e1) b k = doc_lookup (report_ e) b k).
Proof.
  intros Hne. cbv zeta.
  rewrite must_get_aspect_report_eq.
  rewrite clear_aspect_report_eq, decide_False by done.
  unfold JsonObject.
  set (e1 := set_report (<[aspect := JObj ∅]> (report_ e)) e).
  assert (doc_lookup (report_ e1) aspect name = None) as Hl.
  { simpl. rewrite doc_lookup_insert, decide_True by done.
    apply lookup_empty. }
  rewrite (try_get_missing of_json _ _ out _ Hl), Hl.
  unfold e1. rewrite get_aspect_report_inserted. split_and!; try done.
  intros b k Hb. simpl. by rewrite doc_lookup_insert, decide_False.
Qed.

Lemma clear_then_lookup_witness :
  "x" ≠ ""
  ∧ try_get_aspect_report num_of_json "x" "n" 0%Q
      (clear_aspect_report "x" in_aspect_x)
    = (false, 0%Q, clear_aspect_report "x" in_aspect_x).
Proof.
  assert ("x" ≠ "") as Hne by discriminate.
  split; [exact Hne|].
  apply (clear_then_lookup num_of_json "x" "n" 0%Q 0%Q in_aspect_x Hne).
Defined.

(** X5.  Clearing the current aspect right after a [report_value] erases
    the value exactly when the cursor is not the empty string: a value
    reported while no aspect is current is filed under the empty name,
    which [clear_aspect_report] refuses to clear. *)
Theorem clear_current_after_report {T U : Type} (to_json : T → JsonValue)
    (of_json : JsonValue → U) (name : string) (value : T) (out : U)
    (e : Environment) :
  let e1 :=
    clear_aspect_report (cur_aspect_ e) (report_value to_json name value e) in
  try_get_report of_json name out e1
  = (bool_decide (cur_aspect_ e = ""),
     if decide (cur_aspect_ e = "") then of_json (to_json value) else out,
     e1).
Proof.
  cbv zeta. unfold try_get_report.
  rewrite clear_aspect_report_eq, report_value_eq.
  set (o := <[name := to_json value]> (sub_doc (report_ e) (cur_aspect_ e))).
  set (e1 := set_report (<[cur_aspect_ e := JObj o]> (report_ e)) e).
  case_decide as Hd.
  - rewrite bool_decide_eq_true_2 by done.
    change (cur_aspect_ e1) with (cur_aspect_ e).
    assert (doc_lookup (report_ e1) (cur_aspect_ e) name
            = Some (to_json value)) as Hl.
    { simpl. rewrite doc_lookup_insert, decide_True by done.
      apply lookup_insert_eq. }
    rewrite (try_get_found of_json _ _ out _ _ Hl).
    unfold e1. by rewrite get_aspect_report_inserted.
  - rewrite bool_decide_eq_false_2 by done. unfold JsonObject.
    set (e2 := set_report (<[cur_aspect_ e := JObj ∅]> (report_ e1)) e1).
    change (cur_aspect_ e2) with (cur_aspect_ e).
    assert (doc_lookup (report_ e2) (cur_aspect_ e) name = None) as Hl.
    { simpl. rewrite doc_lookup_insert, decide_True by done.
      apply lookup_empty. }
    rewrite (try_get_missing of_json _ _ out _ Hl).
    unfold e2. by rewrite get_aspect_report_inserted.
Qed.

(** X6.  A lookup is not read-only.  On an aspect whose entry is missing
    or not an object, [try_get_aspect_report] returns [false] and
    [must_get_aspect_report] fails, and both leave the empty object under
    the aspect in the report document; on an object entry neither changes
    the environment.  A second lookup changes nothing more. *)
Theorem lookup_heals {T : Type} (of_json : JsonValue → T)
    (aspect name : string) (out indeterminate : T) (e : Environment) :
  let healed := set_report (<[aspect := JsonObject]> (report_ e)) e in
  (is_obj (deref_report aspect e) = false →
     try_get_aspect_report of_json aspect name out e = (false, out, healed)
     ∧ must_get_aspect_report of_json indeterminate aspect name e
       = (Raise MissingReportError, healed))
  ∧ (is_obj (deref_report aspect e) = true →
     (try_get_aspect_report of_json aspect name out e).2 = e
     ∧ (must_get_aspect_report of_json indeterminate aspect name e).2 = e)
  ∧ (let e1 := (try_get_aspect_report of_json aspect name out e).2 in
     (try_get_aspect_report of_json aspect name out e1).2 = e1).
Proof.
  cbv zeta. split_and!.
  - intros Hno. unfold deref_report in Hno.
    assert (doc_lookup (report_ e) aspect name = None) as Hl.
    { unfold doc_lookup. by destruct (report_ e !! aspect) as [[]|]. }
    rewrite must_get_aspect_report_eq, (try_get_missing of_json _ _ _ _ Hl).
    rewrite Hl, get_aspect_report_eq.
    assert (sub_doc (report_ e) aspect = ∅) as ->; [|done].
    unfold sub_doc. by destruct (report_ e !! aspect) as [[]|].
  - intros Hobj.
    rewrite must_get_aspect_report_eq, try_get_aspect_report_eq.
    cbn [snd]. by rewrite get_aspect_report_obj.
  - rewrite !try_get_aspect_report_eq. cbn [snd].
    rewrite (get_aspect_report_eq aspect e).
    apply get_aspect_report_inserted.
Qed.

(** ** Reading a tunable *)

Lemma kept_sticky {T : Type} (to_json : T → JsonValue)
    (o : gmap string JsonValue) (name : string) (d1 d2 : T) :
  (∀ x, is_num (to_json x) = true) →
  kept to_json (<[name := kept to_json o name d1]> o) name d2
  = kept to_json o name d1.
Proof.
  intros Hnum. unfold kept at 1. cbv zeta. rewrite lookup_insert_eq. simpl.
  by rewrite kept_is_num.
Qed.

Lemma kept_other {T : Type} (to_json : T → JsonValue)
    (o : gmap string JsonValue) (name name' : string) (v : JsonValue)
    (d : T) :
  name' ≠ name →
  kept to_json (<[name' := v]> o) name d = kept to_json o name d.
Proof. intros Hne. unfold kept. by rewrite lookup_insert_ne. Qed.

(** X7.  The first default wins: once [cfg_num] has been called for a
    key, a later call with any other default returns what the first call
    returned and changes nothing. *)
Theorem cfg_num_first_default_wins {T : Type} (to_json : T → JsonValue)
    (of_json : JsonValue → T) (name : string) (d1 d2 : T)
    (e : Environment) :
  (∀ x, is_num (to_json x) = true) →
  let '(v1, e1) := cfg_num to_json of_json name d1 e in
  cfg_num to_json of_json name d2 e1 = (v1, e1).
Proof.
  intros Hnum. rewrite !cfg_num_eq. simpl.
  rewrite sub_doc_insert, decide_True by done.
  rewrite kept_sticky by done.
  unfold set_cfg. simpl. by rewrite !insert_insert_eq.
Qed.

Lemma cfg_num_first_default_wins_witness :
  (∀ x, is_num (JNum x) = true)
  ∧ (let '(v1, e1) := cfg_num JNum num_of_json "warmup" 3%Q in_aspect_x in
     cfg_num JNum num_of_json "warmup" 5%Q e1 = (v1, e1)).
Proof.
  split; [reflexivity|].
  apply (cfg_num_first_default_wins JNum num_of_json "warmup" 3%Q 5%Q
           in_aspect_x).
  reflexivity.
Defined.

(** X8.  [cfg_num] touches one key of one configuration sub-document: the
    report document, the cursor and the started-set are as before, and so
    are the entries of all other aspects and the other keys of the current
    aspect. *)
Theorem cfg_num_frame {T : Type} (to_json : T → JsonValue)
    (of_json : JsonValue → T) (name : string) (d : T) (e : Environment) :
  let e1 := (cfg_num to_json of_json name d e).2 in
  report_ e1 = report_ e
  ∧ cur_aspect_ e1 = cur_aspect_ e
  ∧ aspects_started_ e1 = aspects_started_ e
  ∧ (∀ a, a ≠ cur_aspect_ e → cfg_ e1 !! a = cfg_ e !! a)
  ∧ (∀ k, k ≠ name →
       doc_lookup (cfg_ e1) (cur_aspect_ e) k
       = doc_lookup (cfg_ e) (cur_aspect_ e) k).
Proof.
  cbv zeta. rewrite cfg_num_eq. simpl. split_and!; try done.
  - intros a Ha. by rewrite lookup_insert_ne.
  - intros k Hk. rewrite doc_lookup_insert, decide_True by done.
    rewrite lookup_insert_ne by done. by rewrite doc_lookup_sub_doc.
Qed.

(** X9.  Two tunables with different names can be read in either order:
    each call returns the same value and the environment ends up the
    same. *)
Theorem cfg_num_commute {T : Type} (to_json : T → JsonValue)
    (of_json : JsonValue → T) (n1 n2 : string) (d1 d2 : T)
    (e : Environment) :
  n1 ≠ n2 →
  let '(v1, e1) := cfg_num to_json of_json n1 d1 e in
  let '(v2, e2) := cfg_num to_json of_json n2 d2 e1 in
  let '(w2, f1) := cfg_num to_json of_json n2 d2 e in
  let '(w1, f2) := cfg_num to_json of_json n1 d1 f1 in
  v1 = w1 ∧ v2 = w2 ∧ e2 = f2.
Proof.
  intros Hne. rewrite !cfg_num_eq. simpl.
  rewrite !sub_doc_insert, !decide_True by done.
  rewrite !kept_other by done. split_and!; try done.
  unfold set_cfg. simpl. rewrite !insert_insert_eq.
  by rewrite (insert_insert_ne _ n1 n2).
Qed.

Lemma cfg_num_commute_witness :
  "iters" ≠ "warmup"
  ∧ (let '(v1, e1) := cfg_num JNum num_of_json "iters" 1%Q in_aspect_x in
     let '(v2, e2) := cfg_num JNum num_of_json "warmup" 5%Q e1 in
     let '(w2, f1) := cfg_num JNum num_of_json "warmup" 5%Q in_aspect_x in
     let '(w1, f2) := cfg_num JNum num_of_json "iters" 1%Q f1 in
     v1 = w1 ∧ v2 = w2 ∧ e2 = f2).
Proof.
  assert ("iters" ≠ "warmup") as Hne by discriminate.
  split; [exact Hne|].
  apply (cfg_num_commute JNum num_of_json "iters" "warmup" 1%Q 5%Q
           in_aspect_x Hne).
Defined.

(** ** What the accessors keep *)

Lemma objects_only_insert (doc : gmap string JsonValue) (a : string)
    (o : gmap string JsonValue) :
  objects_only doc → objects_only (<[a := JObj o]> doc).
Proof. intros H. by apply map_Forall_insert_2. Qed.

(** X11.  Documents whose aspect entries are all objects stay so under
    every accessor: the healing reads, [cfg_num], the two lookups,
    [report_value] and [clear_aspect_report]. *)
Theorem accessors_keep_well_formed {T : Type} (to_json : T → JsonValue)
    (of_json : JsonValue → T) (aspect name : string) (x y : T)
    (e : Environment) :
  well_formed e →
  well_formed (get_aspect_cfg aspect e)
  ∧ well_formed (get_aspect_report aspect e)
  ∧ well_formed (cfg_num to_json of_json name x e).2
  ∧ well_formed (try_get_aspect_report of_json aspect name y e).2
  ∧ well_formed (must_get_aspect_report of_json y aspect name e).2
  ∧ well_formed (report_value to_json name x e)
  ∧ well_formed (clear_aspect_report aspect e).
Proof.
  intros [Hc Hr].
  assert (well_formed (get_aspect_report aspect e)) as Hheal.
  { rewrite get_aspect_report_eq. split; simpl; [done|].
    by apply objects_only_insert. }
  split_and!.
  - rewrite get_aspect_cfg_eq. split; simpl; [|done].
    by apply objects_only_insert.
  - done.
  - rewrite cfg_num_eq. split; simpl; [|done]. by apply objects_only_insert.
  - by rewrite try_get_aspect_report_eq.
  - by rewrite must_get_aspect_report_eq.
  - rewrite report_value_eq. split; simpl; [done|].
    by apply objects_only_insert.
  - rewrite clear_aspect_report_eq. case_decide; [done|].
    split; simpl; [done|]. by apply objects_only_insert.
Qed.

Lemma in_aspect_x_well_formed : well_formed in_aspect_x.
Proof. split; simpl; by apply map_Forall_singleton. Qed.

Lemma accessors_keep_well_formed_witness :
  well_formed in_aspect_x
  ∧ well_formed (cfg_num JNum num_of_json "warmup" 3%Q in_aspect_x).2
  ∧ well_formed (clear_aspect_report "y" in_aspect_x).
Proof.
  split; [exact in_aspect_x_well_formed|].
  destruct (accessors_keep_well_formed JNum num_of_json "y" "warmup"
              3%Q 0%Q in_aspect_x in_aspect_x_well_formed)
    as (_ & _ & Hcfg & _ & _ & _ & Hclear).
  split; [exact Hcfg | exact Hclear].
Defined.

(** X12.  No accessor removes an aspect from a document, and each adds at
    most the aspect it was asked about: the aspect names of the document
    afterwards are those before plus that one (for [clear_aspect_report]
    with the empty name, those before). *)
Theorem accessors_add_only_the_aspect {T : Type} (to_json : T → JsonValue)
    (of_json : JsonValue → T) (aspect name : string) (x y : T)
    (e : Environment) :
  dom (cfg_ (get_aspect_cfg aspect e)) = {[aspect]} ∪ dom (cfg_ e)
  ∧ dom (report_ (get_aspect_report aspect e))
    = {[aspect]} ∪ dom (report_ e)
  ∧ dom (cfg_ (cfg_num to_json of_json name x e).2)
    = {[cur_aspect_ e]} ∪ dom (cfg_ e)
  ∧ dom (report_ (try_get_aspect_report of_json aspect name y e).2)
    = {[aspect]} ∪ dom (report_ e)
  ∧ dom (report_ (must_get_aspect_report of_json y aspect name e).2)
    = {[aspect]} ∪ dom (report_ e)
  ∧ dom (report_ (report_value to_json name x e))
    = {[cur_aspect_ e]} ∪ dom (report_ e)
  ∧ dom (report_ (clear_aspect_report aspect e))
    = (if decide (aspect = "") then ∅ else {[aspect]}) ∪ dom (report_ e).
Proof.
  rewrite get_aspect_cfg_eq, cfg_num_eq, try_get_aspect_report_eq,
    must_get_aspect_report_eq, report_value_eq, clear_aspect_report_eq.
  rewrite get_aspect_report_eq. simpl.
  split_and!; try apply dom_insert_L.
  case_decide; simpl; [set_solver|]. apply dom_insert_L.
Qed.

(** X13.  The two documents are independent: the configuration accessors
    never touch the report document, the report accessors never touch the
    configuration document, and neither kind moves the cursor or changes
    the started-set. *)
Theorem accessors_stay_in_their_document {T : Type}
    (to_json : T → JsonValue) (of_json : JsonValue → T)
    (aspect name : string) (x y : T) (e : Environment) :
  let same_but_cfg e' :=
    report_ e' = report_ e ∧ cur_aspect_ e' = cur_aspect_ e
    ∧ aspects_started_ e' = aspects_started_ e in
  let same_but_report e' :=
    cfg_ e' = cfg_ e ∧ cur_aspect_ e' = cur_aspect_ e
    ∧ aspects_started_ e' = aspects_started_ e in
  same_but_cfg (get_aspect_cfg aspect e)
  ∧ same_but_cfg (cfg_num to_json of_json name x e).2
  ∧ same_but_report (get_aspect_report aspect e)
  ∧ same_but_report (try_get_aspect_report of_json aspect name y e).2
  ∧ same_but_report (must_get_aspect_report of_json y aspect name e).2
  ∧ same_but_report (report_value to_json name x e)
  ∧ same_but_report (clear_aspect_report aspect e).
Proof.
  cbv zeta.
  rewrite get_aspect_cfg_eq, cfg_num_eq, try_get_aspect_report_eq,
    must_get_aspect_report_eq, report_value_eq, clear_aspect_report_eq.
  rewrite get_aspect_report_eq. simpl.
  split_and!; try done; by case_decide.
Qed.

(** X14.  Healing is idempotent and order-independent: asking again for
    the same aspect changes nothing more, and asking for two aspects gives
    the same documents in either order. *)
Theorem healing_idempotent_commutes (a b : string) (e : Environment) :
  get_aspect_cfg a (get_aspect_cfg a e) = get_aspect_cfg a e
  ∧ get_aspect_report a (get_aspect_report a e) = get_aspect_report a e
  ∧ get_aspect_cfg a (get_aspect_cfg b e)
    = get_aspect_cfg b (get_aspect_cfg a e)
  ∧ get_aspect_report a (get_aspect_report b e)
    = get_aspect_report b (get_aspect_report a e).
Proof.
  rewrite !get_aspect_cfg_eq, !get_aspect_report_eq.
  unfold set_cfg, set_report. simpl.
  rewrite !sub_doc_insert, !decide_True by done.
  rewrite !insert_insert_eq. split_and!; try done.
  - destruct (decide (a = b)) as [->|Hne].
    + rewrite !decide_True by done. by rewrite !insert_insert_eq.
    + rewrite !decide_False by congruence.
      by rewrite (insert_insert_ne _ a b).
  - destruct (decide (a = b)) as [->|Hne].
    + rewrite !decide_True by done. by rewrite !insert_insert_eq.
    + rewrite !decide_False by congruence.
      by rewrite (insert_insert_ne _ a b).
Qed.
